(** * ios-health-dump: the daily-metric store, its record type and its
    serialization, as a shallow embedding of

    - [src/datamodels.py]       : [HealthDump], [to_dict], [from_dict]
    - [src/ios_health_dump.py]  : [upsert_health_dump], [get_all_health_data]
    - [src/db.py]               : [db_transaction], [init_health_dumps_table]
    - [src/app.py]              : [get_health_data], [dump] (the callers)

    Python exceptions are values of [PyExc]; a fallible computation
    returns [res].  Python dicts are stdpp [gmap string PyVal]; the SQLite
    table is a [gmap] keyed by its primary key [date]. *)

From Stdlib Require Import ZArith Ascii String Bool.
From Stdlib Require Import PrimFloat.
From stdpp Require Import base gmap strings list sorting.

Open Scope Z_scope.

(* ------------------------------------------------------------------ *)
(** ** Python exceptions and the error monad *)

Inductive PyExc :=
| KeyError (key : string)          (* [data["steps"]] on a missing key *)
| ValueError                       (* [datetime.fromisoformat] rejects *)
| AttributeError (attr : string)   (* [obj.attr] not defined *)
| OperationalError                 (* sqlite3: no such table / column *)
| NotAnnotatedType.
(** [NotAnnotatedType]: [cls(...)] received a value outside the field's
    annotated type.  Python stores such a value unchecked; the typed record
    below cannot hold it, so this model reports it instead. *)

Inductive res (A : Type) :=
| Ok (a : A)
| Err (e : PyExc).
Arguments Ok {A} a.
Arguments Err {A} e.

Definition res_bind {A B} (m : res A) (k : A -> res B) : res B :=
  match m with
  | Ok a => k a
  | Err e => Err e
  end.

Notation "'let?' x ':=' m 'in' k" := (res_bind m (fun x => k))
  (at level 200, x name, m at level 100, k at level 200).

(* ------------------------------------------------------------------ *)
(** ** [datetime.datetime]

    A datetime is its seven wall-clock fields and, for an aware value, the
    UTC offset of its [tzinfo] in microseconds ([None]: naive).  The
    [fold] attribute is not rendered by [isoformat] and not compared by
    [==] between naive values; it is left out. *)

Record datetime := mk_datetime {
  dt_year : Z;
  dt_month : Z;
  dt_day : Z;
  dt_hour : Z;
  dt_minute : Z;
  dt_second : Z;
  dt_microsecond : Z;
  dt_utcoffset : option Z
}.

Definition is_leap (y : Z) : bool :=
  (Z.eqb (y mod 4) 0 && negb (Z.eqb (y mod 100) 0)) || Z.eqb (y mod 400) 0.

Definition days_in_month (y m : Z) : Z :=
  if Z.eqb m 2 then (if is_leap y then 29 else 28)
  else if Z.eqb m 4 || Z.eqb m 6 || Z.eqb m 9 || Z.eqb m 11 then 30
  else 31.

Definition us_per_day : Z := 86400000000.

(** The checks of the [datetime(...)] and [timezone(...)] constructors:
    every [datetime] object satisfies them. *)
Definition valid_datetime (d : datetime) : bool :=
  (1 <=? dt_year d) && (dt_year d <=? 9999) &&
  (1 <=? dt_month d) && (dt_month d <=? 12) &&
  (1 <=? dt_day d) && (dt_day d <=? days_in_month (dt_year d) (dt_month d)) &&
  (0 <=? dt_hour d) && (dt_hour d <=? 23) &&
  (0 <=? dt_minute d) && (dt_minute d <=? 59) &&
  (0 <=? dt_second d) && (dt_second d <=? 59) &&
  (0 <=? dt_microsecond d) && (dt_microsecond d <=? 999999) &&
  match dt_utcoffset d with
  | None => true
  | Some off => (- us_per_day <? off) && (off <? us_per_day)
  end.

(** [dt.replace(tzinfo=None)] *)
Definition replace_tzinfo_none (d : datetime) : datetime :=
  {| dt_year := dt_year d; dt_month := dt_month d; dt_day := dt_day d;
     dt_hour := dt_hour d; dt_minute := dt_minute d;
     dt_second := dt_second d; dt_microsecond := dt_microsecond d;
     dt_utcoffset := None |}.

(** [a <= b] between two naive datetimes: lexicographic on the fields. *)
Definition naive_fields (d : datetime) : list Z :=
  [dt_year d; dt_month d; dt_day d; dt_hour d; dt_minute d;
   dt_second d; dt_microsecond d].

Fixpoint lex_le (xs ys : list Z) : bool :=
  match xs, ys with
  | x :: xs', y :: ys' => (x <? y) || ((x =? y) && lex_le xs' ys')
  | _, _ => true
  end.

Definition naive_le (a b : datetime) : bool :=
  lex_le (naive_fields a) (naive_fields b).

(* ------------------------------------------------------------------ *)
(** *** Decimal digits: ["%0<w>d"] and the C parser's [parse_digits] *)

Definition digit_char (d : Z) : ascii := ascii_of_nat (48 + Z.to_nat d).

(** ["%0<w>d" % n] for [0 <= n < 10^w]. *)
Fixpoint pad_digits (w : nat) (n : Z) : string :=
  match w with
  | O => EmptyString
  | S w' => String (digit_char ((n / 10 ^ Z.of_nat w') mod 10)) (pad_digits w' n)
  end.

Definition digit_val (c : ascii) : option Z :=
  let k := nat_of_ascii c in
  if (48 <=? k)%nat && (k <=? 57)%nat then Some (Z.of_nat k - 48) else None.

Fixpoint parse_digits (w : nat) (acc : Z) (s : string) : option (Z * string) :=
  match w with
  | O => Some (acc, s)
  | S w' =>
      match s with
      | EmptyString => None
      | String c s' =>
          match digit_val c with
          | Some d => parse_digits w' (acc * 10 + d) s'
          | None => None
          end
      end
  end.

(** Consume one expected character. *)
Definition expect (c : ascii) (s : string) : option string :=
  match s with
  | String c' s' => if Ascii.eqb c c' then Some s' else None
  | EmptyString => None
  end.

(** *** [datetime.isoformat()] (default [sep='T'], [timespec='auto']) *)

(** The offset suffix, as CPython's [format_utcoffset]: [+HH:MM], then
    [:SS] when seconds or microseconds are non-zero, then [.ffffff] when
    microseconds are non-zero. *)
Definition format_offset (off : Z) : string :=
  let a := Z.abs off in
  let hh := a / 3600000000 in
  let mm := (a / 60000000) mod 60 in
  let ss := (a / 1000000) mod 60 in
  let us := a mod 1000000 in
  String (if off <? 0 then "-"%char else "+"%char)
    (pad_digits 2 hh ++ String ":" (pad_digits 2 mm ++
      (if (ss =? 0) && (us =? 0) then EmptyString
       else String ":" (pad_digits 2 ss ++
              (if us =? 0 then EmptyString else String "." (pad_digits 6 us)))))).

Definition isoformat (d : datetime) : string :=
  pad_digits 4 (dt_year d) ++ String "-" (pad_digits 2 (dt_month d) ++
  String "-" (pad_digits 2 (dt_day d) ++ String "T" (
  pad_digits 2 (dt_hour d) ++ String ":" (pad_digits 2 (dt_minute d) ++
  String ":" (pad_digits 2 (dt_second d) ++
  ((if dt_microsecond d =? 0 then EmptyString
    else String "." (pad_digits 6 (dt_microsecond d))) ++
   match dt_utcoffset d with
   | None => EmptyString
   | Some off => format_offset off
   end)))))).

(** *** [datetime.fromisoformat(s)]

    A part of the grammar of CPython's parser: [YYYY-MM-DD], optionally
    followed by one separator character and [HH:MM:SS[.ffffff]] (six
    fraction digits), optionally followed by [(+|-)HH:MM[:SS[.ffffff]]];
    then the [datetime(...)] and [timezone(...)] range checks.  Every
    string this parser accepts is accepted with the same result by
    [datetime.fromisoformat] of every Python from 3.7 on (the repository's
    [int | None] annotations need 3.10 or later).  The other spellings,
    whose acceptance depends on the version ([HH], [HH:MM], three-digit or
    longer fractions, a [Z] suffix, basic format, week dates), are reported
    as [ValueError] here.  Statements that depend on which strings are
    rejected take the parser as a parameter instead (the [_with]
    definitions below). *)

Definition parse_frac (s : string) : option (Z * string) :=
  match s with
  | String "." s' => parse_digits 6 0 s'
  | _ => Some (0, s)
  end.

Definition parse_time (s : string) : option (Z * Z * Z * Z * string) :=
  '(h, s1) ← parse_digits 2 0 s;
  s2 ← expect ":" s1;
  '(mi, s3) ← parse_digits 2 0 s2;
  s4 ← expect ":" s3;
  '(sec, s5) ← parse_digits 2 0 s4;
  '(us, s6) ← parse_frac s5;
  Some (h, mi, sec, us, s6).

Definition parse_tz (s : string) : option (option Z) :=
  match s with
  | EmptyString => Some None
  | String c t =>
      sign ← (if Ascii.eqb c "+" then Some 1
              else if Ascii.eqb c "-" then Some (-1) else None);
      '(hh, t1) ← parse_digits 2 0 t;
      t2 ← expect ":" t1;
      '(mm, t3) ← parse_digits 2 0 t2;
      '(ss, us, t4) ←
        match t3 with
        | String ":" t3' =>
            '(ss, t5) ← parse_digits 2 0 t3';
            '(us, t6) ← parse_frac t5;
            Some (ss, us, t6)
        | _ => Some (0, 0, t3)
        end;
      match t4 with
      | EmptyString =>
          Some (Some (sign * (hh * 3600000000 + mm * 60000000 + ss * 1000000 + us)))
      | String _ _ => None
      end
  end.

Definition parse_isoformat (s : string) : option datetime :=
  '(y, s1) ← parse_digits 4 0 s;
  s2 ← expect "-" s1;
  '(m, s3) ← parse_digits 2 0 s2;
  s4 ← expect "-" s3;
  '(d, s5) ← parse_digits 2 0 s4;
  match s5 with
  | EmptyString => Some (mk_datetime y m d 0 0 0 0 None)
  | String _sep t =>
      '(h, mi, sec, us, t1) ← parse_time t;
      off ← parse_tz t1;
      Some (mk_datetime y m d h mi sec us off)
  end.

Definition fromisoformat (s : string) : res datetime :=
  match parse_isoformat s with
  | Some d => if valid_datetime d then Ok d else Err ValueError
  | None => Err ValueError
  end.

(** [s.replace(old, new)] for a one-character [old]. *)
Fixpoint str_replace_char (old : ascii) (new s : string) : string :=
  match s with
  | EmptyString => EmptyString
  | String c s' =>
      if Ascii.eqb c old then new ++ str_replace_char old new s'
      else String c (str_replace_char old new s')
  end.

(* ------------------------------------------------------------------ *)
(** ** [src/datamodels.py]: [HealthDump] *)

(** The Python values that occur in the field mappings. *)
Inductive PyVal :=
| VNone
| VInt (z : Z)
| VFloat (f : float)
| VStr (s : string)
| VDatetime (d : datetime).

(** The dataclass, with its six annotated fields: [date: str],
    [steps: int | None], [kcals: float | None], [km: float | None],
    [flights_climbed: int | None], [recorded_at: datetime].  It declares
    no [weight] field. *)
Record HealthDump := mk_HealthDump {
  date : string;
  steps : option Z;
  kcals : option float;
  km : option float;
  flights_climbed : option Z;
  recorded_at : datetime
}.

(** Python attribute access [health_dump.<name>] on a [HealthDump]
    instance: the declared fields, and [AttributeError] for any other
    name. *)
Definition opt_int (o : option Z) : PyVal :=
  match o with Some z => VInt z | None => VNone end.

Definition opt_float (o : option float) : PyVal :=
  match o with Some f => VFloat f | None => VNone end.

Definition HealthDump_getattr (h : HealthDump) (name : string) : res PyVal :=
  if String.eqb name "date" then Ok (VStr (date h))
  else if String.eqb name "steps" then Ok (opt_int (steps h))
  else if String.eqb name "kcals" then Ok (opt_float (kcals h))
  else if String.eqb name "km" then Ok (opt_float (km h))
  else if String.eqb name "flights_climbed" then Ok (opt_int (flights_climbed h))
  else if String.eqb name "recorded_at" then Ok (VDatetime (recorded_at h))
  else Err (AttributeError name).

(** [HealthDump.to_dict] *)
Definition to_dict (h : HealthDump) : gmap string PyVal :=
  <["date" := VStr (date h)]> (
  <["steps" := opt_int (steps h)]> (
  <["kcals" := opt_float (kcals h)]> (
  <["km" := opt_float (km h)]> (
  <["flights_climbed" := opt_int (flights_climbed h)]> (
  <["recorded_at" := VStr (isoformat (recorded_at h))]> ∅))))).

(** [data.get(key)] and [data[key]] *)
Definition dict_get (data : gmap string PyVal) (k : string) : PyVal :=
  default VNone (data !! k).

Definition dict_getitem (data : gmap string PyVal) (k : string) : res PyVal :=
  match data !! k with
  | Some v => Ok v
  | None => Err (KeyError k)
  end.

(** [cls(date=..., ..., recorded_at=...)] on the typed record. *)
Definition as_str (v : PyVal) : res string :=
  match v with VStr s => Ok s | _ => Err NotAnnotatedType end.
Definition as_opt_int (v : PyVal) : res (option Z) :=
  match v with VNone => Ok None | VInt z => Ok (Some z) | _ => Err NotAnnotatedType end.
Definition as_opt_float (v : PyVal) : res (option float) :=
  match v with VNone => Ok None | VFloat f => Ok (Some f) | _ => Err NotAnnotatedType end.
Definition as_datetime (v : PyVal) : res datetime :=
  match v with VDatetime d => Ok d | _ => Err NotAnnotatedType end.

Definition HealthDump_init (date_v steps_v kcals_v km_v flights_v rec_v : PyVal)
  : res HealthDump :=
  let? d := as_str date_v in
  let? s := as_opt_int steps_v in
  let? kc := as_opt_float kcals_v in
  let? k := as_opt_float km_v in
  let? fl := as_opt_int flights_v in
  let? r := as_datetime rec_v in
  Ok (mk_HealthDump d s kc k fl r).

(** The first statement of [from_dict]: the [recorded_at] value after the
    [isinstance] / [is None] branches.  [fromiso] is [datetime.fromisoformat],
    [now] is [datetime.now()]. *)
Definition from_dict_recorded_at_with (fromiso : string -> res datetime) (now : datetime)
  (data : gmap string PyVal) : res PyVal :=
  match dict_get data "recorded_at" with
  | VStr s =>
      match fromiso (str_replace_char "Z" "+00:00" s) with
      | Ok d => Ok (VDatetime d)
      | Err e => Err e
      end
  | VNone => Ok (VDatetime now)
  | v => Ok v
  end.

(** [HealthDump.from_dict]: the keyword arguments are evaluated in order. *)
Definition from_dict_with (fromiso : string -> res datetime) (now : datetime)
  (data : gmap string PyVal) : res HealthDump :=
  let? rec_v := from_dict_recorded_at_with fromiso now data in
  let? date_v := dict_getitem data "date" in
  let? steps_v := dict_getitem data "steps" in
  let? kcals_v := dict_getitem data "kcals" in
  let? km_v := dict_getitem data "km" in
  let flights_v := dict_get data "flights_climbed" in
  HealthDump_init date_v steps_v kcals_v km_v flights_v rec_v.

(** The same with the parser above. *)
Definition from_dict_recorded_at (now : datetime) (data : gmap string PyVal) : res PyVal :=
  from_dict_recorded_at_with fromisoformat now data.

Definition from_dict (now : datetime) (data : gmap string PyVal) : res HealthDump :=
  from_dict_with fromisoformat now data.

(* ------------------------------------------------------------------ *)
(** ** The SQLite database [health_dumps]

    A row as stored: [date TEXT PRIMARY KEY], [steps INTEGER], [kcals REAL],
    [km REAL], [flights_climbed INTEGER], [weight REAL],
    [recorded_at TEXT NOT NULL]; [None] is SQL [NULL]. *)
Record Row := mk_Row {
  row_date : string;
  row_steps : option Z;
  row_kcals : option float;
  row_km : option float;
  row_flights_climbed : option Z;
  row_weight : option float;
  row_recorded_at : string
}.

(** The table: its column names (as [PRAGMA table_info] lists them) and its
    rows keyed by the primary key. *)
Record Table := mk_Table {
  tbl_columns : list string;
  tbl_rows : gmap string Row
}.

(** The database file: the table [health_dumps], if it exists. *)
Definition DB := option Table.

Definition TABLE_NAME : string := "health_dumps".

Definition full_columns : list string :=
  ["date"; "steps"; "kcals"; "km"; "flights_climbed"; "weight"; "recorded_at"].

Definition has_column (t : Table) (c : string) : bool :=
  existsb (String.eqb c) (tbl_columns t).

(** *** Statements run through a cursor

    A statement runs against the connection's view of the database and
    either returns a value or raises; [Sql A] threads the view. *)
Definition Sql (A : Type) := DB -> res A * DB.

Definition sret {A} (a : A) : Sql A := fun db => (Ok a, db).

Definition slift {A} (r : res A) : Sql A := fun db => (r, db).

Definition sbind {A B} (m : Sql A) (k : A -> Sql B) : Sql B :=
  fun db =>
    match m db with
    | (Ok a, db') => k a db'
    | (Err e, db') => (Err e, db')
    end.

Notation "'let*' x ':=' m 'in' k" := (sbind m (fun x => k))
  (at level 200, x name, m at level 100, k at level 200).

(** [SELECT name FROM sqlite_master WHERE type='table' AND name='health_dumps'] *)
Definition table_exists : Sql bool :=
  fun db => (Ok (match db with Some _ => true | None => false end), db).

(** [PRAGMA table_info(health_dumps)], column names only. *)
Definition pragma_table_info_names : Sql (list string) :=
  fun db => (Ok (match db with Some t => tbl_columns t | None => [] end), db).

(** An existing row as it reads once the [weight] column is added: every
    other column as before, [weight] [NULL]. *)
Definition row_without_weight (r : Row) : Row :=
  mk_Row (row_date r) (row_steps r) (row_kcals r) (row_km r)
    (row_flights_climbed r) None (row_recorded_at r).

(** [ALTER TABLE health_dumps ADD COLUMN weight REAL]: every existing row
    reads [NULL] in the new column. *)
Definition alter_add_weight : Sql unit :=
  fun db =>
    match db with
    | Some t =>
        if has_column t "weight" then (Err OperationalError, db)
        else (Ok tt, Some (mk_Table (tbl_columns t ++ ["weight"])
                             (row_without_weight <$> tbl_rows t)))
    | None => (Err OperationalError, db)
    end.

(** [CREATE TABLE health_dumps (...)] *)
Definition create_table : Sql unit :=
  fun db =>
    match db with
    | Some _ => (Err OperationalError, db)
    | None => (Ok tt, Some (mk_Table full_columns ∅))
    end.

(** [SELECT recorded_at, weight FROM health_dumps WHERE date = ?] then
    [fetchone()]. *)
Definition select_recorded_at_weight (d : string) : Sql (option (string * option float)) :=
  fun db =>
    match db with
    | Some t =>
        if has_column t "weight" then
          (Ok ((fun r => (row_recorded_at r, row_weight r)) <$> tbl_rows t !! d), db)
        else (Err OperationalError, db)
    | None => (Err OperationalError, db)
    end.

(** [UPDATE health_dumps SET weight = ? WHERE date = ?] *)
Definition update_weight (w : option float) (d : string) : Sql unit :=
  fun db =>
    match db with
    | Some t =>
        if has_column t "weight" then
          (Ok tt, Some (mk_Table (tbl_columns t)
             (match tbl_rows t !! d with
              | Some r => <[d := mk_Row (row_date r) (row_steps r) (row_kcals r) (row_km r)
                                   (row_flights_climbed r) w (row_recorded_at r)]> (tbl_rows t)
              | None => tbl_rows t
              end)))
        else (Err OperationalError, db)
    | None => (Err OperationalError, db)
    end.

(** [INSERT OR REPLACE INTO health_dumps (...) VALUES (?, ..., ?)] *)
Definition insert_or_replace (r : Row) : Sql unit :=
  fun db =>
    match db with
    | Some t =>
        if has_column t "weight" then
          (Ok tt, Some (mk_Table (tbl_columns t) (<[row_date r := r]> (tbl_rows t))))
        else (Err OperationalError, db)
    | None => (Err OperationalError, db)
    end.

(** [SELECT COUNT( * ) FROM health_dumps] then [fetchone()[0]] *)
Definition count_rows : Sql Z :=
  fun db =>
    match db with
    | Some t => (Ok (Z.of_nat (size (tbl_rows t))), db)
    | None => (Err OperationalError, db)
    end.

(** *** [db_transaction()]

    The connection is opened on the stored database; the body of the
    [with] block runs on the connection's view; [conn.commit()] makes the
    view the stored database, [conn.rollback()] discards it; the
    connection is closed on every path.  [commit] is the outcome of
    [conn.commit()] (SQLite can refuse it: disk full, lock contention). *)
Inductive TxEvent := TxCommit | TxRollback | TxClose.

Record World := mk_World {
  w_db : DB;
  w_log : list TxEvent
}.

Definition db_transaction {A} (commit : res unit) (body : Sql A) (w : World)
  : res A * World :=
  match body (w_db w) with
  | (Ok a, view) =>
      match commit with
      | Ok _ => (Ok a, mk_World view (w_log w ++ [TxCommit; TxClose]))
      | Err e => (Err e, mk_World (w_db w) (w_log w ++ [TxRollback; TxClose]))
      end
  | (Err e, _) => (Err e, mk_World (w_db w) (w_log w ++ [TxRollback; TxClose]))
  end.

(** *** [init_health_dumps_table] *)
Definition init_health_dumps_table_body : Sql unit :=
  let* exists_ := table_exists in
  if exists_ then
    let* columns := pragma_table_info_names in
    if negb (existsb (String.eqb "weight") columns) then alter_add_weight
    else sret tt
  else create_table.

Definition init_health_dumps_table (commit : res unit) (w : World) : res unit * World :=
  db_transaction commit init_health_dumps_table_body w.

(** *** [upsert_health_dump] *)

(** [t.replace(tzinfo=None) if t.tzinfo else t] *)
Definition strip_tz (d : datetime) : datetime :=
  match dt_utcoffset d with
  | Some _ => replace_tzinfo_none d
  | None => d
  end.

(** A Python value bound to the [REAL] parameter of the [weight] column. *)
Definition sql_real (v : PyVal) : res (option float) :=
  match v with
  | VNone => Ok None
  | VFloat f => Ok (Some f)
  | _ => Err NotAnnotatedType
  end.

(** The fall-through [INSERT OR REPLACE] path.  The parameter tuple is
    built left to right: [health_dump.date] ... [health_dump.flights_climbed]
    are declared fields and cannot fail, then [health_dump.weight] is read,
    then [recorded_at.isoformat()]. *)
Definition insert_health_dump (h : HealthDump) : Sql Z :=
  let* weight_v := slift (HealthDump_getattr h "weight") in
  let* weight := slift (sql_real weight_v) in
  let* _ := insert_or_replace
              (mk_Row (date h) (steps h) (kcals h) (km h) (flights_climbed h)
                 weight (isoformat (recorded_at h))) in
  count_rows.

(** [fromiso] is [datetime.fromisoformat]. *)
Definition upsert_health_dump_body_with (fromiso : string -> res datetime) (h : HealthDump)
  : Sql Z :=
  let* existing_record := select_recorded_at_weight (date h) in
  match existing_record with
  | Some (existing_ra, existing_weight) =>
      let* existing_recorded_at := slift (fromiso existing_ra) in
      let health_dump_time := strip_tz (recorded_at h) in
      let existing_time := strip_tz existing_recorded_at in
      if naive_le health_dump_time existing_time then
        (* [if health_dump.weight is not None and existing_weight is None] *)
        let* weight_v := slift (HealthDump_getattr h "weight") in
        let* _ :=
          match weight_v, existing_weight with
          | VNone, _ => sret tt
          | _, Some _ => sret tt
          | _, None =>
              let* w := slift (sql_real weight_v) in
              update_weight w (date h)
          end in
        count_rows
      else insert_health_dump h
  | None => insert_health_dump h
  end.

Definition upsert_health_dump_with (fromiso : string -> res datetime) (commit : res unit)
  (w : World) (h : HealthDump) : res Z * World :=
  db_transaction commit (upsert_health_dump_body_with fromiso h) w.

(** The same with the parser above. *)
Definition upsert_health_dump_body (h : HealthDump) : Sql Z :=
  upsert_health_dump_body_with fromisoformat h.

Definition upsert_health_dump (commit : res unit) (w : World) (h : HealthDump)
  : res Z * World :=
  upsert_health_dump_with fromisoformat commit w h.

(** A sequence of calls, each with the outcome of its commit. *)
Fixpoint upsert_all (calls : list (res unit * HealthDump)) (w : World) : World :=
  match calls with
  | [] => w
  | (commit, h) :: rest => upsert_all rest (snd (upsert_health_dump commit w h))
  end.

(** *** [get_all_health_data] *)

(** [if date_start:] — a bound is used when it is a non-empty string. *)
Definition bound_of (o : option string) : option string :=
  match o with
  | Some s => if String.eqb s EmptyString then None else Some s
  | None => None
  end.

(** [WHERE date >= ? AND date <= ?] (TEXT, BINARY collation). *)
Definition in_bounds (lo hi : option string) (r : Row) : bool :=
  match lo with Some s => String.leb s (row_date r) | None => true end &&
  match hi with Some s => String.leb (row_date r) s | None => true end.

(** [ORDER BY date DESC] *)
Definition date_desc (r1 r2 : Row) : Prop := String.le (row_date r2) (row_date r1).

#[global] Instance date_desc_dec : RelDecision date_desc.
Proof. intros r1 r2. unfold date_desc. apply _. Defined.

Definition select_rows (lo hi : option string) : Sql (list Row) :=
  fun db =>
    match db with
    | Some t =>
        if has_column t "weight" then
          (Ok (merge_sort date_desc
                 (List.filter (in_bounds lo hi) (map snd (map_to_list (tbl_rows t))))), db)
        else (Err OperationalError, db)
    | None => (Err OperationalError, db)
    end.

Definition row_to_dict (r : Row) : gmap string PyVal :=
  <["date" := VStr (row_date r)]> (
  <["steps" := opt_int (row_steps r)]> (
  <["kcals" := opt_float (row_kcals r)]> (
  <["km" := opt_float (row_km r)]> (
  <["flights_climbed" := opt_int (row_flights_climbed r)]> (
  <["weight" := opt_float (row_weight r)]> (
  <["recorded_at" := VStr (row_recorded_at r)]> ∅)))))).

Definition get_all_health_data (commit : res unit) (w : World)
  (fill_missing_dates : bool) (date_start date_end : option string)
  : res (list (gmap string PyVal)) * World :=
  let (rows, w') :=
    db_transaction commit (select_rows (bound_of date_start) (bound_of date_end)) w in
  (* [if fill_missing_dates: pass] *)
  (match rows with
   | Ok rs => Ok (map row_to_dict rs)
   | Err e => Err e
   end, w').

(** A fixed [datetime.now()] for the examples. *)
Definition sample_now : datetime := mk_datetime 2026 1 5 12 0 0 0 None.

(** Sample states and records (from the test-suite's scenarios). *)
Definition sample_row : Row :=
  mk_Row "2026-01-05" (Some 8000) (Some 400.0%float) (Some 6.5%float) None None
    "2026-01-05T10:00:00".

Definition sample_world : World :=
  mk_World (Some (mk_Table full_columns {[ "2026-01-05" := sample_row ]})) [].

Definition empty_world : World := mk_World (Some (mk_Table full_columns ∅)) [].

Definition sample_dump_at (hour : Z) : HealthDump :=
  mk_HealthDump "2026-01-05" (Some 10000) (Some 500.5%float) (Some 8.25%float) None
    (mk_datetime 2026 1 5 hour 0 0 0 None).

Definition sample_range_row (d : string) : Row :=
  mk_Row d (Some 1000) None None None None (d +:+ "T12:00:00").

Definition sample_range_world : World :=
  mk_World (Some (mk_Table full_columns
    {[ "2026-01-03" := sample_range_row "2026-01-03";
       "2026-01-04" := sample_range_row "2026-01-04";
       "2026-01-05" := sample_range_row "2026-01-05" ]})) [].

(* ------------------------------------------------------------------ *)
(** ** [src/app.py]: the HTTP handlers that call the store *)

(** [d.date().isoformat()]: ["%04d-%02d-%02d"]. *)
Definition date_isoformat (d : datetime) : string :=
  pad_digits 4 (dt_year d) ++ String "-" (pad_digits 2 (dt_month d) ++
  String "-" (pad_digits 2 (dt_day d))).

(** [str.lower()]: the letters [A]..[Z] are lowered, the other ASCII
    characters are kept.  (A non-ASCII character lowers to a non-ASCII one,
    apart from the Kelvin sign and the dotted capital I, whose lower forms
    hold no letter of ["today"]; the comparison below does not see them.) *)
Definition ascii_lower (c : ascii) : ascii :=
  let n := nat_of_ascii c in
  if (65 <=? n)%nat && (n <=? 90)%nat then ascii_of_nat (n + 32) else c.

Fixpoint str_lower (s : string) : string :=
  match s with
  | EmptyString => EmptyString
  | String c s' => String (ascii_lower c) (str_lower s')
  end.

(** [get_health_data] (route [GET /api/health-data]): [date_param],
    [date_start] and [date_end] are [request.args.get(...)] ([None] when the
    query parameter is absent); [now] is [datetime.now()].  The result is the
    [data] list of the JSON body. *)
Definition get_health_data (commit : res unit) (w : World) (now : datetime)
  (date_param date_start date_end : option string)
  : res (list (gmap string PyVal)) * World :=
  let '(date_start, date_end) :=
    match date_param with
    | Some p =>
        (* [if date_param:] *)
        if String.eqb p EmptyString then (date_start, date_end)
        else if String.eqb (str_lower p) "today" then
          (Some (date_isoformat now), Some (date_isoformat now))
        else (Some p, Some p)
    | None => (date_start, date_end)
    end in
  (* [get_all_health_data(date_start=..., date_end=...)], [fill_missing_dates=True] *)
  get_all_health_data commit w true date_start date_end.

(** Exceptions raised in the handlers: those of the store, and [TypeError]
    from a call. *)
Inductive AppExc :=
| PyErr (e : PyExc)
| TypeError (msg : string).

(** The fields of the [HealthDump] dataclass, in declaration order. *)
Definition HealthDump_fields : list string :=
  ["date"; "steps"; "kcals"; "km"; "flights_climbed"; "recorded_at"].

Definition kwarg (kwargs : list (string * PyVal)) (k : string) : option PyVal :=
  snd <$> List.find (fun kv => String.eqb (fst kv) k) kwargs.

(** [HealthDump(k1=v1, ...)], the generated [__init__]: a keyword that names
    no field raises [TypeError] while the arguments are bound; then a field
    with no argument raises [TypeError]; then the fields are set. *)
Definition HealthDump_call (kwargs : list (string * PyVal)) : AppExc + HealthDump :=
  match List.find (fun kv => negb (existsb (String.eqb (fst kv)) HealthDump_fields)) kwargs with
  | Some (k, _) =>
      inl (TypeError ("HealthDump.__init__() got an unexpected keyword argument '" ++ k ++ "'"))
  | None =>
      match kwarg kwargs "date", kwarg kwargs "steps", kwarg kwargs "kcals",
            kwarg kwargs "km", kwarg kwargs "flights_climbed", kwarg kwargs "recorded_at" with
      | Some d, Some s, Some kc, Some k, Some fl, Some r =>
          match HealthDump_init d s kc k fl r with
          | Ok h => inr h
          | Err e => inl (PyErr e)
          end
      | _, _, _, _, _, _ => inl (TypeError "HealthDump.__init__() missing a required argument")
      end
  end.




Section dump.

(** [int(v)], [float(v)] of a JSON value and [float(s)] of a string: each
    returns its number or raises ([ValueError], [TypeError]). *)
Variable py_int : PyVal -> AppExc + Z.
Variable py_float : PyVal -> AppExc + float.
Variable py_float_str : string -> AppExc + float.



End dump.

(** A UTC-aware copy of a naive datetime: [d.replace(tzinfo=timezone.utc)]. *)
Definition with_utc (d : datetime) : datetime :=
  {| dt_year := dt_year d; dt_month := dt_month d; dt_day := dt_day d;
     dt_hour := dt_hour d; dt_minute := dt_minute d;
     dt_second := dt_second d; dt_microsecond := dt_microsecond d;
     dt_utcoffset := Some 0 |}.

(** The store before its table exists or before the migration: no table, or a
    table without the [weight] column. *)
Definition unmigrated (db : DB) : Prop :=
  match db with None => True | Some t => has_column t "weight" = false end.

(** A store whose table predates the [weight] column. *)
Definition old_schema_world : World :=
  mk_World (Some (mk_Table ["date"; "steps"; "kcals"; "km"; "flights_climbed"; "recorded_at"]
                    {[ "2026-01-05" := row_without_weight sample_row ]})) [].

(** A stored row whose [recorded_at] is not an ISO timestamp. *)
Definition bad_timestamp_row : Row :=
  mk_Row "2026-01-05" None None None None None "yesterday".

Definition bad_timestamp_world : World :=
  mk_World (Some (mk_Table full_columns {[ "2026-01-05" := bad_timestamp_row ]})) [].

(** A string with no occurrence of [c]. *)
Fixpoint no_char (c : ascii) (s : string) : bool :=
  match s with
  | EmptyString => true
  | String c' s' => negb (Ascii.eqb c' c) && no_char c s'
  end.

(* ================================================================== *)
(** * Proofs *)

Lemma append_String (c : ascii) (s t : string) :
  (String c s ++ t)%string = String c (s ++ t).
Proof. reflexivity. Qed.

Lemma append_Empty (t : string) : (EmptyString ++ t)%string = t.
Proof. reflexivity. Qed.

Lemma digit_val_digit_char (d : Z) :
  0 <= d <= 9 -> digit_val (digit_char d) = Some d.
Proof.
  intros Hd. unfold digit_val, digit_char.
  rewrite Ascii.nat_ascii_embedding by lia.
  replace ((48 <=? 48 + Z.to_nat d)%nat && (48 + Z.to_nat d <=? 57)%nat) with true.
  - f_equal. lia.
  - symmetry. apply andb_true_intro. split; apply Nat.leb_le; lia.
Qed.

Lemma parse_digits_pad (w : nat) :
  forall (n acc : Z) (rest : string), 0 <= n ->
  parse_digits w acc (pad_digits w n ++ rest) =
    Some (acc * 10 ^ Z.of_nat w + n mod 10 ^ Z.of_nat w, rest).
Proof.
  induction w as [|w IH]; intros n acc rest Hn.
  - cbn [pad_digits parse_digits]. rewrite append_Empty.
    rewrite Z.pow_0_r, Z.mod_1_r. f_equal. f_equal. lia.
  - cbn [pad_digits]. rewrite append_String. cbn [parse_digits].
    assert (Hpos : 0 < 10 ^ Z.of_nat w) by (apply Z.pow_pos_nonneg; lia).
    pose proof (Z.mod_pos_bound (n / 10 ^ Z.of_nat w) 10 ltac:(lia)) as Hq.
    rewrite digit_val_digit_char by lia.
    rewrite IH by exact Hn.
    f_equal. f_equal.
    rewrite Nat2Z.inj_succ, Z.pow_succ_r by lia.
    pose proof (Z.rem_mul_r n (10 ^ Z.of_nat w) 10 ltac:(lia) ltac:(lia)) as E.
    rewrite (Z.mul_comm 10 (10 ^ Z.of_nat w)), E.
    ring.
Qed.

Lemma parse_digits_pad_exact (w : nat) (n acc : Z) (rest : string) :
  0 <= n < 10 ^ Z.of_nat w ->
  parse_digits w acc (pad_digits w n ++ rest) = Some (acc * 10 ^ Z.of_nat w + n, rest).
Proof.
  intros Hn. rewrite parse_digits_pad by lia. rewrite Z.mod_small by lia. reflexivity.
Qed.

Lemma parse_digits_pad_0 (w : nat) (n : Z) (rest : string) :
  0 <= n < 10 ^ Z.of_nat w ->
  parse_digits w 0 (pad_digits w n ++ rest) = Some (n, rest).
Proof.
  intros Hn. rewrite parse_digits_pad_exact by exact Hn. reflexivity.
Qed.

Lemma no_char_app (c : ascii) (s t : string) :
  no_char c (s ++ t) = no_char c s && no_char c t.
Proof.
  induction s as [|c' s IH]; [reflexivity|].
  rewrite append_String. cbn [no_char]. rewrite IH. apply andb_assoc.
Qed.

Lemma str_replace_char_no_char (old : ascii) (new s : string) :
  no_char old s = true -> str_replace_char old new s = s.
Proof.
  induction s as [|c s IH]; [reflexivity|].
  cbn [no_char str_replace_char]. intros H.
  apply andb_prop in H as [Hc Hs].
  apply negb_true_iff in Hc. rewrite Hc, IH by exact Hs. reflexivity.
Qed.

Lemma no_Z_pad_digits (w : nat) (n : Z) : no_char "Z" (pad_digits w n) = true.
Proof.
  induction w as [|w IH]; [reflexivity|].
  cbn [pad_digits no_char]. rewrite IH, andb_true_r.
  pose proof (Z.mod_pos_bound (n / 10 ^ Z.of_nat w) 10 ltac:(lia)) as Hq.
  remember ((n / 10 ^ Z.of_nat w) mod 10) as q eqn:Hqe. clear Hqe.
  unfold digit_char.
  assert (Hq' : (Z.to_nat q < 10)%nat) by lia.
  destruct (Z.to_nat q) as [|[|[|[|[|[|[|[|[|[|k]]]]]]]]]]; try reflexivity; lia.
Qed.

Ltac no_Z_solve :=
  repeat first
    [ rewrite no_char_app
    | rewrite no_Z_pad_digits
    | progress cbn [no_char]
    | match goal with
      | |- context [if ?b then _ else _] => destruct b
      | |- context [match ?o with Some _ => _ | None => _ end] => destruct o
      end ];
  reflexivity.

Lemma no_Z_format_offset (off : Z) : no_char "Z" (format_offset off) = true.
Proof. unfold format_offset. no_Z_solve. Qed.

Lemma no_Z_isoformat (d : datetime) : no_char "Z" (isoformat d) = true.
Proof.
  unfold isoformat.
  repeat first
    [ rewrite no_char_app
    | rewrite no_Z_pad_digits
    | rewrite no_Z_format_offset
    | progress cbn [no_char]
    | match goal with
      | |- context [if ?b then _ else _] => destruct b
      | |- context [match ?o with Some _ => _ | None => _ end] => destruct o
      end ];
  reflexivity.
Qed.

Lemma offset_decompose (a : Z) :
  0 <= a ->
  a = a / 3600000000 * 3600000000 + (a / 60000000) mod 60 * 60000000
      + (a / 1000000) mod 60 * 1000000 + a mod 1000000.
Proof.
  intros Ha.
  pose proof (Z.div_mod a 60000000 ltac:(lia)) as E1.
  pose proof (Z.div_mod (a / 60000000) 60 ltac:(lia)) as E2.
  rewrite Z.div_div in E2 by lia.
  pose proof (Z.rem_mul_r a 1000000 60 ltac:(lia) ltac:(lia)) as E3.
  replace (1000000 * 60) with 60000000 in E3 by reflexivity.
  replace (60000000 * 60) with 3600000000 in E2 by reflexivity.
  lia.
Qed.



Lemma append_Empty_r (s : string) : (s ++ EmptyString)%string = s.
Proof. induction s as [|c s IH]; [reflexivity|]. rewrite append_String, IH. reflexivity. Qed.

Lemma parse_digits_pad_end (w : nat) (n : Z) :
  0 <= n < 10 ^ Z.of_nat w -> parse_digits w 0 (pad_digits w n) = Some (n, EmptyString).
Proof.
  intros Hn. rewrite <- (append_Empty_r (pad_digits w n)). apply parse_digits_pad_0, Hn.
Qed.

Ltac parse_step :=
  first
    [ rewrite parse_digits_pad_0 by (cbn; lia)
    | rewrite parse_digits_pad_end by (cbn; lia)
    | progress cbn [mbind option_bind expect parse_frac Ascii.eqb Bool.eqb andb] ].
Lemma parse_tz_format_offset (off : Z) :
  - us_per_day < off < us_per_day ->
  parse_tz (format_offset off) = Some (Some off).
Proof.
  intros Hoff. unfold us_per_day in Hoff. unfold format_offset.
  set (a := Z.abs off).
  assert (Ha : 0 <= a < 86400000000) by (unfold a; lia).
  pose proof (offset_decompose a ltac:(lia)) as Ea.
  assert (Hhh : 0 <= a / 3600000000 < 24) by (split; [apply Z.div_pos | apply Z.div_lt_upper_bound]; lia).
  pose proof (Z.mod_pos_bound (a / 60000000) 60 ltac:(lia)) as Hmm.
  pose proof (Z.mod_pos_bound (a / 1000000) 60 ltac:(lia)) as Hss.
  pose proof (Z.mod_pos_bound a 1000000 ltac:(lia)) as Hus.
  set (hh := a / 3600000000) in *.
  set (mm := (a / 60000000) mod 60) in *.
  set (ss := (a / 1000000) mod 60) in *.
  set (us := a mod 1000000) in *.
  assert (Hsign : (if off <? 0 then -1 else 1) * a = off).
  { unfold a. destruct (Z.ltb_spec off 0); lia. }
  destruct (off <? 0); cbn [parse_tz Ascii.eqb Bool.eqb andb];
  repeat parse_step;
  (destruct ((ss =? 0) && (us =? 0)) eqn:E0;
   [ apply andb_prop in E0 as [E1 E2]; apply Z.eqb_eq in E1, E2;
     cbn [mbind option_bind]; f_equal; f_equal; lia
   | repeat parse_step;
     destruct (us =? 0) eqn:E2;
     [ apply Z.eqb_eq in E2; repeat parse_step; f_equal; f_equal; lia
     | repeat parse_step; f_equal; f_equal; lia ] ]).
Qed.

Lemma valid_datetime_bounds (d : datetime) :
  valid_datetime d = true ->
  1 <= dt_year d <= 9999 /\ 1 <= dt_month d <= 12 /\
  1 <= dt_day d <= days_in_month (dt_year d) (dt_month d) /\
  0 <= dt_hour d <= 23 /\ 0 <= dt_minute d <= 59 /\ 0 <= dt_second d <= 59 /\
  0 <= dt_microsecond d <= 999999 /\
  (forall off, dt_utcoffset d = Some off -> - us_per_day < off < us_per_day).
Proof.
  unfold valid_datetime. intros H.
  repeat match goal with
         | H : _ && _ = true |- _ => apply andb_prop in H as [? ?]
         end.
  repeat match goal with
         | H : (_ <=? _) = true |- _ => apply Z.leb_le in H
         end.
  do 7 (split; [lia|]).
  intros o0 Eo. rewrite Eo in *.
  repeat match goal with
         | H : _ && _ = true |- _ => apply andb_prop in H as [? ?]
         end.
  repeat match goal with
         | H : (_ <? _) = true |- _ => apply Z.ltb_lt in H
         end.
  lia.
Qed.

Lemma days_in_month_le (y m : Z) : days_in_month y m <= 31.
Proof.
  unfold days_in_month.
  destruct (m =? 2); [destruct (is_leap y); lia|].
  destruct (_ || _); lia.
Qed.

Lemma parse_frac_format_offset (off : Z) :
  parse_frac (format_offset off) = Some (0, format_offset off).
Proof. unfold format_offset. destruct (off <? 0); reflexivity. Qed.

Lemma parse_isoformat_isoformat (d : datetime) :
  valid_datetime d = true -> parse_isoformat (isoformat d) = Some d.
Proof.
  intros Hv. apply valid_datetime_bounds in Hv as (Hy & Hm & Hd & Hh & Hmi & Hs & Hus & Hoff).
  destruct d as [y mo da h mi s us o];
    cbn [dt_year dt_month dt_day dt_hour dt_minute dt_second dt_microsecond dt_utcoffset] in *.
  pose proof (days_in_month_le y mo).
  unfold isoformat, parse_isoformat.
  cbn [dt_year dt_month dt_day dt_hour dt_minute dt_second dt_microsecond dt_utcoffset].
  repeat parse_step.
  unfold parse_time.
  repeat parse_step.
  destruct (us =? 0) eqn:Eus.
  - apply Z.eqb_eq in Eus. subst us. rewrite append_Empty.
    destruct o as [off|]; cbn [mbind option_bind].
    + rewrite parse_frac_format_offset. cbn [mbind option_bind].
      rewrite parse_tz_format_offset by (apply Hoff; reflexivity). reflexivity.
    + reflexivity.
  - rewrite append_String. repeat parse_step.
    destruct o as [off|]; cbn [mbind option_bind].
    + rewrite parse_tz_format_offset by (apply Hoff; reflexivity). reflexivity.
    + reflexivity.
Qed.

Lemma fromisoformat_isoformat (d : datetime) :
  valid_datetime d = true ->
  fromisoformat (str_replace_char "Z" "+00:00" (isoformat d)) = Ok d.
Proof.
  intros Hv. rewrite str_replace_char_no_char by apply no_Z_isoformat.
  unfold fromisoformat. rewrite parse_isoformat_isoformat, Hv by exact Hv. reflexivity.
Qed.

Lemma to_dict_lookup (r : HealthDump) :
  to_dict r !! "date" = Some (VStr (date r)) /\
  to_dict r !! "steps" = Some (opt_int (steps r)) /\
  to_dict r !! "kcals" = Some (opt_float (kcals r)) /\
  to_dict r !! "km" = Some (opt_float (km r)) /\
  to_dict r !! "flights_climbed" = Some (opt_int (flights_climbed r)) /\
  to_dict r !! "recorded_at" = Some (VStr (isoformat (recorded_at r))).
Proof. unfold to_dict. repeat split; simplify_map_eq; reflexivity. Qed.

(** C4: for every HealthDump [r] with a valid [recorded_at], [to_dict r] renders
    [recorded_at] as its ISO-8601 string and [from_dict] of that mapping gives back
    [r] in every field (the dataclass has six fields; there is no weight field). *)
Theorem from_dict_to_dict (now : datetime) (r : HealthDump) :
  valid_datetime (recorded_at r) = true ->
  to_dict r !! "recorded_at" = Some (VStr (isoformat (recorded_at r))) /\
  from_dict now (to_dict r) = Ok r.
Proof.
  intros Hv.
  destruct (to_dict_lookup r) as (Hd & Hs & Hk & Hkm & Hf & Hr).
  split; [exact Hr|].
  unfold from_dict, from_dict_with, from_dict_recorded_at_with, dict_get, dict_getitem.
  rewrite Hr. cbn [default id]. rewrite fromisoformat_isoformat by exact Hv.
  cbn [res_bind]. rewrite Hd, Hs, Hk, Hkm, Hf. cbn [res_bind default id].
  destruct r as [d s kc k fl ra]; cbn [steps kcals km flights_climbed recorded_at date].
  unfold HealthDump_init.
  destruct s, kc, k, fl; reflexivity.
Qed.

Lemma fromisoformat_error (s : string) (e : PyExc) :
  fromisoformat s = Err e -> e = ValueError.
Proof.
  unfold fromisoformat. destruct (parse_isoformat s); [destruct (valid_datetime _)|];
  intros H; inversion H; reflexivity.
Qed.





Lemma HealthDump_getattr_weight (h : HealthDump) :
  HealthDump_getattr h "weight" = Err (AttributeError "weight").
Proof. reflexivity. Qed.

Lemma insert_health_dump_raises (h : HealthDump) (db : DB) :
  insert_health_dump h db = (Err (AttributeError "weight"), db).
Proof. reflexivity. Qed.

(** What the body of [upsert_health_dump] raises, by the path it takes. *)
Lemma upsert_health_dump_body_result (fromiso : string -> res datetime) (h : HealthDump) (db : DB) :
  upsert_health_dump_body_with fromiso h db =
    (match db with
     | None => Err OperationalError
     | Some t =>
         if has_column t "weight" then
           match tbl_rows t !! date h with
           | None => Err (AttributeError "weight")
           | Some r =>
               match fromiso (row_recorded_at r) with
               | Ok _ => Err (AttributeError "weight")
               | Err e => Err e
               end
           end
         else Err OperationalError
     end, db).
Proof.
  unfold upsert_health_dump_body_with, sbind.
  destruct db as [t|]; [|reflexivity].
  cbn [select_recorded_at_weight].
  destruct (has_column t "weight"); [|reflexivity].
  destruct (tbl_rows t !! date h) as [r|] eqn:Er; cbn [fmap option_fmap option_map].
  - cbn [slift]. destruct (fromiso (row_recorded_at r)) as [e|e]; [|reflexivity].
    destruct (naive_le _ _); [reflexivity|].
    apply insert_health_dump_raises.
  - apply insert_health_dump_raises.
Qed.

Lemma upsert_health_dump_rolls_back (fromiso : string -> res datetime) (commit : res unit)
  (w : World) (h : HealthDump) :
  exists e, upsert_health_dump_with fromiso commit w h =
    (Err e, mk_World (w_db w) (w_log w ++ [TxRollback; TxClose])).
Proof.
  unfold upsert_health_dump_with, db_transaction.
  rewrite upsert_health_dump_body_result.
  destruct (w_db w) as [t|]; [|eexists; reflexivity].
  destruct (has_column t "weight"); [|eexists; reflexivity].
  destruct (tbl_rows t !! date h) as [r|]; [|eexists; reflexivity].
  destruct (fromiso (row_recorded_at r)); eexists; reflexivity.
Qed.

Lemma upsert_all_db (calls : list (res unit * HealthDump)) (w : World) :
  w_db (upsert_all calls w) = w_db w.
Proof.
  revert w. induction calls as [|[commit h] calls IH]; intros w; [reflexivity|].
  cbn [upsert_all]. rewrite IH.
  destruct (upsert_health_dump_rolls_back fromisoformat commit w h) as [e E].
  unfold upsert_health_dump. rewrite E. reflexivity.
Qed.

(** C3: for whatever strings [datetime.fromisoformat] accepts ([fromiso]):
    when the table is migrated and the existing row for the date, if any, has a
    [recorded_at] that [fromiso] parses, so that the call reaches the insert
    path or the stale-merge check, [upsert_health_dump] reads the undeclared
    attribute [weight], raises AttributeError and rolls the transaction back,
    leaving the store unchanged. *)
Theorem upsert_health_dump_reads_missing_weight (fromiso : string -> res datetime)
  (commit : res unit) (w : World) (h : HealthDump) (t : Table) :
  w_db w = Some t -> has_column t "weight" = true ->
  (forall r, tbl_rows t !! date h = Some r ->
             exists e, fromiso (row_recorded_at r) = Ok e) ->
  upsert_health_dump_with fromiso commit w h =
    (Err (AttributeError "weight"), mk_World (w_db w) (w_log w ++ [TxRollback; TxClose])).
Proof.
  intros Hdb Hcol Hparse.
  unfold upsert_health_dump_with, db_transaction.
  rewrite upsert_health_dump_body_result, Hdb, Hcol.
  destruct (tbl_rows t !! date h) as [r|] eqn:Er; [|reflexivity].
  destruct (Hparse r eq_refl) as [e ->]. reflexivity.
Qed.


#[local] Instance date_desc_total : Total date_desc.
Proof. intros r1 r2. unfold date_desc. destruct (total String.le (row_date r2) (row_date r1)); auto. Qed.

Lemma bound_lo_spec (ds : option string) (x : string) :
  match bound_of ds with Some s => String.leb s x | None => true end = true <->
  (forall s, ds = Some s -> s <> EmptyString -> String.leb s x = true).
Proof.
  unfold bound_of. destruct ds as [s|].
  - destruct (String.eqb_spec s EmptyString) as [->|Hne].
    + split; [intros _ s' [= <-] Hc; congruence | reflexivity].
    + split; [intros H s' [= <-] _; exact H | intros H; apply H; auto].
  - split; [intros _ s' Hs; discriminate | reflexivity].
Qed.

Lemma bound_hi_spec (de : option string) (x : string) :
  match bound_of de with Some s => String.leb x s | None => true end = true <->
  (forall s, de = Some s -> s <> EmptyString -> String.leb x s = true).
Proof.
  unfold bound_of. destruct de as [s|].
  - destruct (String.eqb_spec s EmptyString) as [->|Hne].
    + split; [intros _ s' [= <-] Hc; congruence | reflexivity].
    + split; [intros H s' [= <-] _; exact H | intros H; apply H; auto].
  - split; [intros _ s' Hs; discriminate | reflexivity].
Qed.

Lemma NoDup_map_snd_keyed (l : list (string * Row)) :
  NoDup l -> (forall kv, In kv l -> fst kv = row_date (snd kv)) ->
  NoDup (map snd l).
Proof.
  induction l as [|[k r] l IH]; intros Hnd Hkey; cbn [map]; [constructor|].
  inversion Hnd as [|? ? Hnotin Hnd']; subst.
  constructor.
  - intros Hin. apply list_elem_of_In, in_map_iff in Hin as [[k' r'] [Heq Hin']].
    cbn in Heq. subst r'.
    assert (k = k') as <-.
    { pose proof (Hkey (k, r) (or_introl eq_refl)) as E1.
      pose proof (Hkey (k', r) (or_intror Hin')) as E2.
      cbn in E1, E2. congruence. }
    apply Hnotin. apply list_elem_of_In. exact Hin'.
  - apply IH; [exact Hnd'|]. intros kv Hin. apply Hkey. right. exact Hin.
Qed.

(** C6 (amended): the query commits, and returns the rows of the table with no
    duplicates, exactly those whose date is within each bound that is present and
    non-empty (an empty-string bound is ignored, like an absent one), sorted by
    date descending, as field mappings. *)
Theorem get_all_health_data_range (w : World) (t : Table) (fill_missing_dates : bool)
  (date_start date_end : option string) :
  w_db w = Some t -> has_column t "weight" = true ->
  (forall d r, tbl_rows t !! d = Some r -> row_date r = d) ->
  exists rows,
    get_all_health_data (Ok tt) w fill_missing_dates date_start date_end =
      (Ok (map row_to_dict rows), mk_World (w_db w) (w_log w ++ [TxCommit; TxClose])) /\
    NoDup rows /\
    (forall r, In r rows <->
       (exists d, tbl_rows t !! d = Some r) /\
       (forall s, date_start = Some s -> s <> EmptyString -> String.leb s (row_date r) = true) /\
       (forall s, date_end = Some s -> s <> EmptyString -> String.leb (row_date r) s = true)) /\
    Sorted date_desc rows.
Proof.
  intros Hdb Hcol Hkey.
  set (L := List.filter (in_bounds (bound_of date_start) (bound_of date_end))
                        (map snd (map_to_list (tbl_rows t)))).
  exists (merge_sort date_desc L).
  pose proof (merge_sort_Permutation date_desc L) as Hperm.
  split; [|split; [|split]].
  - unfold get_all_health_data, db_transaction. rewrite Hdb. cbn [select_rows].
    rewrite Hcol. reflexivity.
  - rewrite Hperm. apply NoDup_ListNoDup, List.NoDup_filter, NoDup_ListNoDup.
    apply NoDup_map_snd_keyed.
    + apply NoDup_map_to_list.
    + intros [k r] Hin. cbn. symmetry. apply (Hkey k r).
      apply elem_of_map_to_list. apply list_elem_of_In. exact Hin.
  - intros r. split.
    + intros Hin. apply (Permutation_in r Hperm) in Hin.
      unfold L in Hin. apply filter_In in Hin as [Hin Hb].
      apply in_map_iff in Hin as [[k r'] [Heq Hin]]. cbn in Heq. subst r'.
      split; [exists k; apply elem_of_map_to_list, list_elem_of_In; exact Hin|].
      unfold in_bounds in Hb. apply andb_prop in Hb as [Hlo Hhi].
      split; [apply bound_lo_spec; exact Hlo | apply bound_hi_spec; exact Hhi].
    + intros [[k Hk] [Hlo Hhi]].
      apply (Permutation_in r (Permutation_sym Hperm)).
      unfold L. apply filter_In. split.
      * apply in_map_iff. exists (k, r). split; [reflexivity|].
        apply list_elem_of_In, elem_of_map_to_list. exact Hk.
      * unfold in_bounds. apply andb_true_intro.
        split; [apply bound_lo_spec; exact Hlo | apply bound_hi_spec; exact Hhi].
  - apply Sorted_merge_sort. apply _.
Qed.


Lemma db_transaction_atomic {A} (commit : res unit) (body : Sql A) (w : World) :
  (forall e, fst (db_transaction commit body w) = Err e ->
     snd (db_transaction commit body w) = mk_World (w_db w) (w_log w ++ [TxRollback; TxClose]) /\
     (fst (body (w_db w)) = Err e \/ commit = Err e)) /\
  (forall a, fst (db_transaction commit body w) = Ok a ->
     fst (body (w_db w)) = Ok a /\
     snd (db_transaction commit body w) =
       mk_World (snd (body (w_db w))) (w_log w ++ [TxCommit; TxClose])).
Proof.
  unfold db_transaction.
  destruct (body (w_db w)) as [[a|e] view]; cbn [fst snd].
  - destruct commit as [u|e]; cbn [fst snd]; split; intros x Hx; try discriminate.
    + injection Hx as <-. auto.
    + injection Hx as <-. auto.
  - split; intros x Hx; try discriminate. injection Hx as <-. auto.
Qed.

(** C7: for both [upsert_health_dump] and [init_health_dumps_table], an error in
    the body or the commit restores the store, rolls back and re-raises; on
    success the body's store is committed once. *)
Theorem upsert_and_init_transactions (commit : res unit) (w : World) :
  (forall h e, fst (upsert_health_dump commit w h) = Err e ->
     snd (upsert_health_dump commit w h) =
       mk_World (w_db w) (w_log w ++ [TxRollback; TxClose]) /\
     (fst (upsert_health_dump_body h (w_db w)) = Err e \/ commit = Err e)) /\
  (forall h z, fst (upsert_health_dump commit w h) = Ok z ->
     snd (upsert_health_dump commit w h) =
       mk_World (snd (upsert_health_dump_body h (w_db w))) (w_log w ++ [TxCommit; TxClose])) /\
  (forall e, fst (init_health_dumps_table commit w) = Err e ->
     snd (init_health_dumps_table commit w) =
       mk_World (w_db w) (w_log w ++ [TxRollback; TxClose]) /\
     (fst (init_health_dumps_table_body (w_db w)) = Err e \/ commit = Err e)) /\
  (forall u, fst (init_health_dumps_table commit w) = Ok u ->
     snd (init_health_dumps_table commit w) =
       mk_World (snd (init_health_dumps_table_body (w_db w))) (w_log w ++ [TxCommit; TxClose])).
Proof.
  split; [|split; [|split]].
  - intros h. apply (proj1 (db_transaction_atomic commit (upsert_health_dump_body h) w)).
  - intros h z Hz. apply (proj2 (db_transaction_atomic commit (upsert_health_dump_body h) w) z Hz).
  - apply (proj1 (db_transaction_atomic commit init_health_dumps_table_body w)).
  - intros u Hu. apply (proj2 (db_transaction_atomic commit init_health_dumps_table_body w) u Hu).
Qed.

Lemma has_column_app_weight (cols : list string) :
  existsb (String.eqb "weight") (cols ++ ["weight"]) = true.
Proof. rewrite existsb_app. apply orb_true_iff. right. reflexivity. Qed.

Lemma init_health_dumps_table_body_result (db : DB) :
  init_health_dumps_table_body db =
    (Ok tt,
     match db with
     | None => Some (mk_Table full_columns ∅)
     | Some t =>
         if has_column t "weight" then Some t
         else Some (mk_Table (tbl_columns t ++ ["weight"]) (row_without_weight <$> tbl_rows t))
     end).
Proof.
  unfold init_health_dumps_table_body, sbind.
  destruct db as [t|]; [|reflexivity].
  cbn [table_exists pragma_table_info_names].
  unfold has_column. destruct (existsb (String.eqb "weight") (tbl_columns t)) eqn:E; cbn [negb].
  - reflexivity.
  - cbn [alter_add_weight]. unfold has_column. rewrite E. reflexivity.
Qed.

(** C8: running [init_health_dumps_table] twice gives the same store as running it
    once: a missing table is created with the full schema, a table with weight is
    untouched, a table without weight gets the column with every row kept. *)
Theorem init_health_dumps_table_idempotent (w : World) :
  let w1 := snd (init_health_dumps_table (Ok tt) w) in
  let w2 := snd (init_health_dumps_table (Ok tt) w1) in
  fst (init_health_dumps_table (Ok tt) w) = Ok tt /\
  fst (init_health_dumps_table (Ok tt) w1) = Ok tt /\
  w_db w2 = w_db w1 /\
  match w_db w with
  | None => w_db w1 = Some (mk_Table full_columns ∅)
  | Some t =>
      if has_column t "weight" then w_db w1 = Some t
      else w_db w1 = Some (mk_Table (tbl_columns t ++ ["weight"])
                                    (row_without_weight <$> tbl_rows t))
  end.
Proof.
  cbn zeta. unfold init_health_dumps_table, db_transaction.
  rewrite !init_health_dumps_table_body_result. cbn [fst snd w_db].
  destruct (w_db w) as [t|].
  - destruct (has_column t "weight") eqn:E.
    + rewrite E. auto.
    + unfold has_column at 1. cbn [tbl_columns]. rewrite has_column_app_weight. auto.
  - auto.
Qed.

(** Witness for C3 with the model's parser, on the sample store with a newer
    candidate. *)
Lemma upsert_health_dump_reads_missing_weight_witness :
  (w_db sample_world = Some (mk_Table full_columns {[ "2026-01-05" := sample_row ]}) /\
   has_column (mk_Table full_columns {[ "2026-01-05" := sample_row ]}) "weight" = true) /\
  upsert_health_dump_with fromisoformat (Ok tt) sample_world (sample_dump_at 11) =
    (Err (AttributeError "weight"),
     mk_World (w_db sample_world) (w_log sample_world ++ [TxRollback; TxClose])).
Proof.
  split; [split; reflexivity|].
  apply (upsert_health_dump_reads_missing_weight fromisoformat (Ok tt) sample_world
           (sample_dump_at 11) (mk_Table full_columns {[ "2026-01-05" := sample_row ]})).
  - reflexivity.
  - reflexivity.
  - intros r Hr. exists (mk_datetime 2026 1 5 10 0 0 0 None).
    cbn in Hr. injection Hr as <-. vm_compute. reflexivity.
Defined.

(** C2 (a defect of the code): the stale-write weight backfill never happens.
    [HealthDump] cannot carry a weight (its constructor rejects the keyword), the
    stored row for 2026-01-05 recorded at 10:00 has a null weight, and a stale
    candidate recorded at 09:00 makes [upsert_health_dump] read the undeclared
    [health_dump.weight]: it raises AttributeError and rolls back, so the row's
    weight stays null. *)
Lemma upsert_stale_weight_never_merged :
  HealthDump_call [("date", VStr "2026-01-05"); ("steps", VInt 10000);
                   ("kcals", VFloat 500.5%float); ("km", VFloat 8.25%float);
                   ("flights_climbed", VNone); ("weight", VFloat 72.5%float);
                   ("recorded_at", VDatetime (mk_datetime 2026 1 5 9 0 0 0 None))] =
    inl (TypeError "HealthDump.__init__() got an unexpected keyword argument 'weight'") /\
  row_weight sample_row = None /\
  fromisoformat (row_recorded_at sample_row) = Ok (mk_datetime 2026 1 5 10 0 0 0 None) /\
  naive_le (strip_tz (recorded_at (sample_dump_at 9)))
           (strip_tz (mk_datetime 2026 1 5 10 0 0 0 None)) = true /\
  upsert_health_dump (Ok tt) sample_world (sample_dump_at 9) =
    (Err (AttributeError "weight"), mk_World (w_db sample_world) [TxRollback; TxClose]).
Proof. split; [reflexivity|]. split; [reflexivity|]. split; [|split]; vm_compute; reflexivity. Qed.

(** C9: after any sequence of upserts, the row stored for a date either keeps its
    recorded_at or has one at least as recent (naive comparison). *)
Theorem upsert_all_recorded_at_non_decreasing (calls : list (res unit * HealthDump))
  (w : World) (t : Table) (d : string) (r : Row) :
  w_db w = Some t -> tbl_rows t !! d = Some r ->
  exists t' r',
    w_db (upsert_all calls w) = Some t' /\ tbl_rows t' !! d = Some r' /\
    (row_recorded_at r' = row_recorded_at r \/
     exists e e', fromisoformat (row_recorded_at r) = Ok e /\
                  fromisoformat (row_recorded_at r') = Ok e' /\
                  naive_le (strip_tz e) (strip_tz e') = true).
Proof.
  intros Hdb Hr. exists t, r. rewrite upsert_all_db, Hdb. auto.
Qed.

(** Witness for C9 on the sample store. *)
Lemma upsert_all_recorded_at_non_decreasing_witness :
  (w_db sample_world = Some (mk_Table full_columns {[ "2026-01-05" := sample_row ]}) /\
   tbl_rows (mk_Table full_columns {[ "2026-01-05" := sample_row ]}) !! "2026-01-05"
     = Some sample_row) /\
  exists t' r',
    w_db (upsert_all [(Ok tt, sample_dump_at 11); (Ok tt, sample_dump_at 9)] sample_world)
      = Some t' /\ tbl_rows t' !! "2026-01-05" = Some r' /\
    (row_recorded_at r' = row_recorded_at sample_row \/
     exists e e', fromisoformat (row_recorded_at sample_row) = Ok e /\
                  fromisoformat (row_recorded_at r') = Ok e' /\
                  naive_le (strip_tz e) (strip_tz e') = true).
Proof.
  split; [split; reflexivity|].
  apply (upsert_all_recorded_at_non_decreasing
           [(Ok tt, sample_dump_at 11); (Ok tt, sample_dump_at 9)] sample_world
           (mk_Table full_columns {[ "2026-01-05" := sample_row ]}) "2026-01-05" sample_row);
    reflexivity.
Defined.

(** C1: a candidate at 11:00, strictly newer than the stored row at 10:00, does not
    replace the row: the upsert raises AttributeError weight and rolls back. *)
Lemma upsert_newer_write_not_applied :
  naive_le (strip_tz (recorded_at (sample_dump_at 11)))
           (strip_tz (mk_datetime 2026 1 5 10 0 0 0 None)) = false /\
  fromisoformat (row_recorded_at sample_row) = Ok (mk_datetime 2026 1 5 10 0 0 0 None) /\
  upsert_health_dump (Ok tt) sample_world (sample_dump_at 11) =
    (Err (AttributeError "weight"), mk_World (w_db sample_world) [TxRollback; TxClose]).
Proof. split; [|split]; vm_compute; reflexivity. Qed.

(** C5: the first upsert into an empty table returns no row count: it raises
    AttributeError weight and rolls back, so the table stays empty. *)
Lemma upsert_first_write_returns_no_count :
  upsert_health_dump (Ok tt) empty_world (sample_dump_at 11) =
    (Err (AttributeError "weight"), mk_World (w_db empty_world) [TxRollback; TxClose]).
Proof. vm_compute. reflexivity. Qed.

(** Witness for C6: the 2026-01-03/04/05 table with bounds 2026-01-04..2026-01-05. *)
Lemma get_all_health_data_range_witness :
  (w_db sample_range_world = Some (mk_Table full_columns
     {[ "2026-01-03" := sample_range_row "2026-01-03";
        "2026-01-04" := sample_range_row "2026-01-04";
        "2026-01-05" := sample_range_row "2026-01-05" ]}) /\
   has_column (mk_Table full_columns
     {[ "2026-01-03" := sample_range_row "2026-01-03";
        "2026-01-04" := sample_range_row "2026-01-04";
        "2026-01-05" := sample_range_row "2026-01-05" ]}) "weight" = true) /\
  exists rows,
    get_all_health_data (Ok tt) sample_range_world true (Some "2026-01-04") (Some "2026-01-05") =
      (Ok (map row_to_dict rows),
       mk_World (w_db sample_range_world) (w_log sample_range_world ++ [TxCommit; TxClose])) /\
    NoDup rows /\
    (forall r, In r rows <->
       (exists d, tbl_rows (mk_Table full_columns
                    {[ "2026-01-03" := sample_range_row "2026-01-03";
                       "2026-01-04" := sample_range_row "2026-01-04";
                       "2026-01-05" := sample_range_row "2026-01-05" ]}) !! d = Some r) /\
       (forall s, Some "2026-01-04" = Some s -> s <> EmptyString -> String.leb s (row_date r) = true) /\
       (forall s, Some "2026-01-05" = Some s -> s <> EmptyString -> String.leb (row_date r) s = true)) /\
    Sorted date_desc rows.
Proof.
  split; [split; reflexivity|].
  apply get_all_health_data_range; [reflexivity | reflexivity |].
  intros d r H. cbn [tbl_rows] in H.
  repeat (apply lookup_insert_Some in H as [[<- <-]|[_ H]]; [reflexivity|]).
  rewrite lookup_singleton_Some in H. destruct H as [<- <-]. reflexivity.
Defined.

(** C6 counterexample: with [date_end] the empty string the sample row dated 2026-01-05
    is returned although it is not lexicographically below the bound. *)
Lemma get_all_health_data_empty_end_bound :
  get_all_health_data (Ok tt) sample_world true None (Some EmptyString) =
    (Ok [row_to_dict sample_row], mk_World (w_db sample_world) [TxCommit; TxClose]) /\
  String.leb (row_date sample_row) EmptyString = false.
Proof. split; vm_compute; reflexivity. Qed.

(** Witness for C4: a record with null optional fields and a +02:00 offset. *)
Lemma from_dict_to_dict_witness :
  valid_datetime (mk_datetime 2026 1 5 11 30 15 250 (Some 7200000000)) = true /\
  (to_dict (mk_HealthDump "2026-01-05" None None None None
              (mk_datetime 2026 1 5 11 30 15 250 (Some 7200000000))) !! "recorded_at"
     = Some (VStr (isoformat (mk_datetime 2026 1 5 11 30 15 250 (Some 7200000000)))) /\
   from_dict sample_now (to_dict (mk_HealthDump "2026-01-05" None None None None
              (mk_datetime 2026 1 5 11 30 15 250 (Some 7200000000))))
     = Ok (mk_HealthDump "2026-01-05" None None None None
              (mk_datetime 2026 1 5 11 30 15 250 (Some 7200000000)))).
Proof.
  split; [vm_compute; reflexivity|].
  apply (from_dict_to_dict sample_now (mk_HealthDump "2026-01-05" None None None None
              (mk_datetime 2026 1 5 11 30 15 250 (Some 7200000000)))).
  vm_compute. reflexivity.
Defined.


(** On a store without the table, or with a table from before the weight
    migration, [get_all_health_data] raises [OperationalError] (the [SELECT]
    names the [weight] column), rolls back and leaves the store as it was. *)
Lemma get_all_health_data_unmigrated (commit : res unit) (w : World)
  (fill_missing_dates : bool) (date_start date_end : option string) :
  unmigrated (w_db w) ->
  get_all_health_data commit w fill_missing_dates date_start date_end =
    (Err OperationalError, mk_World (w_db w) (w_log w ++ [TxRollback; TxClose])).
Proof.
  unfold get_all_health_data, db_transaction, unmigrated.
  destruct (w_db w) as [t|]; cbn [select_rows]; [intros ->|intros _]; reflexivity.
Qed.

(** On a store without the table, or with a table from before the weight
    migration, [upsert_health_dump] raises [OperationalError] at its first
    [SELECT], rolls back and leaves the store as it was. *)
Lemma upsert_health_dump_unmigrated (commit : res unit) (w : World) (h : HealthDump) :
  unmigrated (w_db w) ->
  upsert_health_dump commit w h =
    (Err OperationalError, mk_World (w_db w) (w_log w ++ [TxRollback; TxClose])).
Proof.
  unfold upsert_health_dump, upsert_health_dump_with, db_transaction,
    upsert_health_dump_body_with, unmigrated, sbind.
  destruct (w_db w) as [t|]; cbn [select_recorded_at_weight]; [intros ->|intros _]; reflexivity.
Qed.

(** For whatever strings [datetime.fromisoformat] accepts ([fromiso]): when
    the stored row for the candidate's date has a [recorded_at] that [fromiso]
    rejects with an error [e], [upsert_health_dump] raises [e] and rolls back. *)
Lemma upsert_health_dump_bad_stored_timestamp (fromiso : string -> res datetime)
  (commit : res unit) (w : World) (h : HealthDump) (t : Table) (r : Row) (e : PyExc) :
  w_db w = Some t -> has_column t "weight" = true -> tbl_rows t !! date h = Some r ->
  fromiso (row_recorded_at r) = Err e ->
  upsert_health_dump_with fromiso commit w h =
    (Err e, mk_World (w_db w) (w_log w ++ [TxRollback; TxClose])).
Proof.
  intros Hdb Hcol Hr Hp.
  unfold upsert_health_dump_with, db_transaction.
  rewrite upsert_health_dump_body_result, Hdb, Hcol, Hr, Hp. reflexivity.
Qed.

(** [get_all_health_data] never changes the store, and its transaction ends
    with exactly one commit (when it returns rows) or one rollback (when it
    raises), followed by closing the connection. *)
Lemma get_all_health_data_read_only (commit : res unit) (w : World)
  (fill_missing_dates : bool) (date_start date_end : option string) :
  w_db (snd (get_all_health_data commit w fill_missing_dates date_start date_end)) = w_db w /\
  ((exists rows, fst (get_all_health_data commit w fill_missing_dates date_start date_end) = Ok rows /\
     w_log (snd (get_all_health_data commit w fill_missing_dates date_start date_end)) =
       w_log w ++ [TxCommit; TxClose]) \/
   (exists e, fst (get_all_health_data commit w fill_missing_dates date_start date_end) = Err e /\
     w_log (snd (get_all_health_data commit w fill_missing_dates date_start date_end)) =
       w_log w ++ [TxRollback; TxClose])).
Proof.
  unfold get_all_health_data, db_transaction.
  assert (Hro : forall lo hi, snd (select_rows lo hi (w_db w)) = w_db w).
  { intros lo hi. unfold select_rows. destruct (w_db w) as [t|]; [destruct (has_column t _)|];
      reflexivity. }
  pose proof (Hro (bound_of date_start) (bound_of date_end)) as H.
  destruct (select_rows (bound_of date_start) (bound_of date_end) (w_db w)) as [[rs|e] v];
    cbn [snd] in H; subst v.
  - destruct commit as [u|e]; cbn; [split; [reflexivity|left; eauto]|split; [reflexivity|right; eauto]].
  - cbn. split; [reflexivity|right; eauto].
Qed.

Lemma init_health_dumps_table_body_db (db : DB) :
  exists t, fst (init_health_dumps_table_body db) = Ok tt /\
    snd (init_health_dumps_table_body db) = Some t /\ has_column t "weight" = true /\
    (db = None -> tbl_rows t = ∅).
Proof.
  rewrite init_health_dumps_table_body_result. cbn [fst snd].
  destruct db as [t|].
  - destruct (has_column t "weight") eqn:E.
    + exists t. repeat split; [exact E|discriminate].
    + eexists. split; [reflexivity|split; [reflexivity|split; [|discriminate]]].
      unfold has_column. cbn [tbl_columns]. rewrite existsb_app. cbn. apply orb_true_r.
  - eexists. split; [reflexivity|split; [reflexivity|split; [reflexivity|reflexivity]]].
Qed.

(** After [init_health_dumps_table] commits, from any store, [get_all_health_data]
    succeeds for every choice of bounds; starting from a store without the table,
    it returns the empty list. *)
Lemma init_then_get_all_health_data (w : World) (fill_missing_dates : bool)
  (date_start date_end : option string) :
  let w1 := snd (init_health_dumps_table (Ok tt) w) in
  fst (init_health_dumps_table (Ok tt) w) = Ok tt /\
  exists rows,
    get_all_health_data (Ok tt) w1 fill_missing_dates date_start date_end =
      (Ok rows, mk_World (w_db w1) (w_log w1 ++ [TxCommit; TxClose])) /\
    (w_db w = None -> rows = []).
Proof.
  cbn zeta. destruct (init_health_dumps_table_body_db (w_db w)) as [t [Hok [Hdb [Hcol Hnone]]]].
  assert (Hinit : init_health_dumps_table (Ok tt) w =
                    (Ok tt, mk_World (Some t) (w_log w ++ [TxCommit; TxClose]))).
  { unfold init_health_dumps_table, db_transaction.
    destruct (init_health_dumps_table_body (w_db w)) as [r v]. cbn [fst snd] in Hok, Hdb.
    subst r v. reflexivity. }
  rewrite Hinit. cbn [fst snd w_db w_log]. split; [reflexivity|].
  eexists. split.
  - unfold get_all_health_data, db_transaction. cbn [w_db w_log select_rows].
    rewrite Hcol. reflexivity.
  - intros Hn. rewrite (Hnone Hn). reflexivity.
Qed.

Lemma get_all_health_data_keyed (w : World) (t : Table) (fill_missing_dates : bool)
  (date_start date_end : option string) :
  w_db w = Some t -> has_column t "weight" = true ->
  (forall d r, tbl_rows t !! d = Some r -> row_date r = d) ->
  exists rows,
    get_all_health_data (Ok tt) w fill_missing_dates date_start date_end =
      (Ok (map row_to_dict rows), mk_World (w_db w) (w_log w ++ [TxCommit; TxClose])) /\
    NoDup rows /\
    (forall r, In r rows <->
       (exists d, tbl_rows t !! d = Some r) /\
       (forall s, date_start = Some s -> s <> EmptyString -> String.leb s (row_date r) = true) /\
       (forall s, date_end = Some s -> s <> EmptyString -> String.leb (row_date r) s = true)).
Proof.
  intros Hdb Hcol Hkey.
  set (L := List.filter (in_bounds (bound_of date_start) (bound_of date_end))
                        (map snd (map_to_list (tbl_rows t)))).
  exists (merge_sort date_desc L).
  pose proof (merge_sort_Permutation date_desc L) as Hperm.
  split; [|split].
  - unfold get_all_health_data, db_transaction. rewrite Hdb. cbn [select_rows].
    rewrite Hcol. reflexivity.
  - rewrite Hperm. apply NoDup_ListNoDup, List.NoDup_filter, NoDup_ListNoDup.
    apply NoDup_map_snd_keyed.
    + apply NoDup_map_to_list.
    + intros [k r] Hin. cbn. symmetry. apply (Hkey k r).
      apply elem_of_map_to_list. apply list_elem_of_In. exact Hin.
  - intros r. split.
    + intros Hin. apply (Permutation_in r Hperm) in Hin.
      unfold L in Hin. apply filter_In in Hin as [Hin Hb].
      apply in_map_iff in Hin as [[k r'] [Heq Hin]]. cbn in Heq. subst r'.
      split; [exists k; apply elem_of_map_to_list, list_elem_of_In; exact Hin|].
      unfold in_bounds in Hb. apply andb_prop in Hb as [Hlo Hhi].
      split; [apply bound_lo_spec; exact Hlo | apply bound_hi_spec; exact Hhi].
    + intros [[k Hk] [Hlo Hhi]].
      apply (Permutation_in r (Permutation_sym Hperm)).
      unfold L. apply filter_In. split.
      * apply in_map_iff. exists (k, r). split; [reflexivity|].
        apply list_elem_of_In, elem_of_map_to_list. exact Hk.
      * unfold in_bounds. apply andb_true_intro.
        split; [apply bound_lo_spec; exact Hlo | apply bound_hi_spec; exact Hhi].
Qed.

Lemma NoDup_members_option {A} (l : list A) (o : option A) :
  NoDup l -> (forall x, In x l <-> o = Some x) ->
  l = match o with Some x => [x] | None => [] end.
Proof.
  intros Hnd Hin. destruct o as [a|].
  - assert (Hall : forall x, In x l -> x = a) by (intros x Hx; apply Hin in Hx; congruence).
    assert (Ha : In a l) by (apply Hin; reflexivity).
    destruct l as [|x l]; [destruct Ha|].
    pose proof (Hall x (or_introl eq_refl)) as ->.
    destruct l as [|y l]; [reflexivity|].
    pose proof (Hall y (or_intror (or_introl eq_refl))) as ->.
    apply NoDup_cons_1_1 in Hnd. exfalso. apply Hnd. left.
  - destruct l as [|x l]; [reflexivity|].
    exfalso. pose proof (proj1 (Hin x) (or_introl eq_refl)). discriminate.
Qed.

Lemma date_isoformat_nonempty (d : datetime) : date_isoformat d <> EmptyString.
Proof. unfold date_isoformat. cbn [pad_digits]. rewrite append_String. discriminate. Qed.

(** [GET /api/health-data] with a non-empty [date] parameter ignores [date_start]
    and [date_end] and returns at most one mapping: the row for [today]'s date
    (any letter case) or for the parameter taken verbatim, if it exists. *)
Lemma get_health_data_date_param (commit : res unit) (w : World) (t : Table) (now : datetime)
  (p : string) (date_start date_end : option string) :
  w_db w = Some t -> has_column t "weight" = true ->
  (forall d r, tbl_rows t !! d = Some r -> row_date r = d) ->
  p <> EmptyString ->
  fst (get_health_data (Ok tt) w now (Some p) date_start date_end) =
    Ok (match tbl_rows t !! (if String.eqb (str_lower p) "today" then date_isoformat now else p) with
        | Some r => [row_to_dict r]
        | None => []
        end).
Proof.
  intros Hdb Hcol Hkey Hp.
  set (k := if String.eqb (str_lower p) "today" then date_isoformat now else p).
  assert (Hk : k <> EmptyString).
  { unfold k. destruct (String.eqb _ _); [apply date_isoformat_nonempty|exact Hp]. }
  assert (Hq : get_health_data (Ok tt) w now (Some p) date_start date_end =
               get_all_health_data (Ok tt) w true (Some k) (Some k)).
  { unfold get_health_data, k. destruct (String.eqb_spec p EmptyString) as [->|_];
      [congruence|]. destruct (String.eqb (str_lower p) "today"); reflexivity. }
  rewrite Hq. clearbody k.
  destruct (get_all_health_data_keyed w t true (Some k) (Some k) Hdb Hcol Hkey)
    as [rows [-> [Hnd Hin]]].
  cbn [fst]. f_equal.
  replace rows with (match tbl_rows t !! k with Some r => [r] | None => [] end).
  { destruct (tbl_rows t !! k); reflexivity. }
  symmetry. apply NoDup_members_option; [exact Hnd|].
  intros r. rewrite Hin. split.
  - intros [[d Hd] [Hlo Hhi]].
    specialize (Hlo k eq_refl Hk). specialize (Hhi k eq_refl Hk).
    rewrite (Hkey d r Hd) in Hlo, Hhi.
    assert (k = d) as <- by (apply String.leb_antisym; [exact Hlo|exact Hhi]).
    exact Hd.
  - intros Hr. rewrite (Hkey k r Hr). split; [exists k; exact Hr|].
    split; intros s [= <-] _; destruct (String.leb_total k k); assumption.
Qed.

(** When [recorded_at] is absent from the mapping or [None], a record that
    [HealthDump.from_dict] builds has [recorded_at] equal to [datetime.now()]. *)
Lemma from_dict_default_recorded_at (now : datetime) (data : gmap string PyVal) (h : HealthDump) :
  dict_get data "recorded_at" = VNone -> from_dict now data = Ok h -> recorded_at h = now.
Proof.
  intros Hnone. unfold from_dict, from_dict_with, from_dict_recorded_at_with. rewrite Hnone. cbn [res_bind].
  destruct (dict_getitem data "date"); [|discriminate]; cbn [res_bind].
  destruct (dict_getitem data "steps"); [|discriminate]; cbn [res_bind].
  destruct (dict_getitem data "kcals"); [|discriminate]; cbn [res_bind].
  destruct (dict_getitem data "km"); [|discriminate]; cbn [res_bind].
  unfold HealthDump_init.
  destruct (as_str _); [|discriminate]; cbn [res_bind].
  destruct (as_opt_int _); [|discriminate]; cbn [res_bind].
  destruct (as_opt_float _); [|discriminate]; cbn [res_bind].
  destruct (as_opt_float _); [|discriminate]; cbn [res_bind].
  destruct (as_opt_int _); [|discriminate]; cbn [res_bind as_datetime].
  intros [= <-]. reflexivity.
Qed.

Lemma string_app_assoc (s t u : string) : ((s ++ t) ++ u)%string = (s ++ (t ++ u))%string.
Proof. induction s as [|c s IH]; [reflexivity|]. rewrite !append_String, IH. reflexivity. Qed.

Lemma str_replace_char_app (old : ascii) (new s t : string) :
  str_replace_char old new (s ++ t) = (str_replace_char old new s ++ str_replace_char old new t)%string.
Proof.
  induction s as [|c s IH]; [reflexivity|].
  rewrite append_String. cbn [str_replace_char]. rewrite IH.
  destruct (Ascii.eqb c old); [rewrite string_app_assoc|]; reflexivity.
Qed.

Lemma isoformat_with_utc (d : datetime) :
  dt_utcoffset d = None ->
  isoformat (with_utc d) = (isoformat d ++ "+00:00")%string.
Proof.
  intros Hn. unfold isoformat. rewrite Hn. cbn [with_utc dt_year dt_month dt_day dt_hour
    dt_minute dt_second dt_microsecond dt_utcoffset].
  rewrite !string_app_assoc, !append_String, !string_app_assoc, !append_String.
  rewrite !string_app_assoc, !append_String, !string_app_assoc.
  destruct (dt_microsecond d =? 0); rewrite ?append_String, ?string_app_assoc; reflexivity.
Qed.

Lemma valid_with_utc (d : datetime) :
  dt_utcoffset d = None -> valid_datetime d = true -> valid_datetime (with_utc d) = true.
Proof.
  intros Hn H. unfold valid_datetime in *. rewrite Hn, andb_true_r in H.
  cbn [with_utc dt_year dt_month dt_day dt_hour dt_minute dt_second dt_microsecond dt_utcoffset].
  rewrite H. reflexivity.
Qed.

(** [HealthDump.from_dict] reads a [recorded_at] string written as a naive
    timestamp followed by [Z] as the UTC-aware datetime: the result is the same
    as with that aware datetime in the mapping. *)
Lemma from_dict_trailing_Z (now : datetime) (data : gmap string PyVal) (d : datetime) :
  dt_utcoffset d = None -> valid_datetime d = true ->
  from_dict now (<["recorded_at" := VStr (isoformat d ++ "Z")]> data) =
  from_dict now (<["recorded_at" := VDatetime (with_utc d)]> data).
Proof.
  intros Hn Hv.
  assert (Hs : str_replace_char "Z" "+00:00" (isoformat d ++ "Z") =
               str_replace_char "Z" "+00:00" (isoformat (with_utc d))).
  { rewrite str_replace_char_app.
    rewrite (str_replace_char_no_char _ _ (isoformat d)) by apply no_Z_isoformat.
    rewrite (str_replace_char_no_char _ _ (isoformat (with_utc d))) by apply no_Z_isoformat.
    rewrite isoformat_with_utc by exact Hn. reflexivity. }
  unfold from_dict, from_dict_with, from_dict_recorded_at_with, dict_get.
  rewrite !lookup_insert_eq. cbn [default id]. rewrite Hs.
  rewrite (fromisoformat_isoformat (with_utc d)) by (apply valid_with_utc; assumption).
  cbn [res_bind]. unfold dict_getitem, dict_get.
  rewrite !lookup_insert_ne by discriminate. reflexivity.
Qed.





(** Witness: the query on a table from before the migration. *)
Lemma get_all_health_data_unmigrated_witness :
  unmigrated (w_db old_schema_world) /\
  get_all_health_data (Ok tt) old_schema_world true None None =
    (Err OperationalError,
     mk_World (w_db old_schema_world) (w_log old_schema_world ++ [TxRollback; TxClose])).
Proof.
  split; [reflexivity|].
  apply get_all_health_data_unmigrated. reflexivity.
Defined.

(** Witness: an upsert on a table from before the migration. *)
Lemma upsert_health_dump_unmigrated_witness :
  unmigrated (w_db old_schema_world) /\
  upsert_health_dump (Ok tt) old_schema_world (sample_dump_at 11) =
    (Err OperationalError,
     mk_World (w_db old_schema_world) (w_log old_schema_world ++ [TxRollback; TxClose])).
Proof.
  split; [reflexivity|].
  apply upsert_health_dump_unmigrated. reflexivity.
Defined.

(** Witness: with the model's parser, a stored row whose [recorded_at] is
    ["yesterday"]. *)
Lemma upsert_health_dump_bad_stored_timestamp_witness :
  fromisoformat "yesterday" = Err ValueError /\
  upsert_health_dump_with fromisoformat (Ok tt) bad_timestamp_world (sample_dump_at 11) =
    (Err ValueError,
     mk_World (w_db bad_timestamp_world) (w_log bad_timestamp_world ++ [TxRollback; TxClose])).
Proof.
  split; [vm_compute; reflexivity|].
  apply (upsert_health_dump_bad_stored_timestamp fromisoformat (Ok tt) bad_timestamp_world
           (sample_dump_at 11) (mk_Table full_columns {[ "2026-01-05" := bad_timestamp_row ]})
           bad_timestamp_row ValueError);
    [reflexivity | reflexivity | reflexivity | vm_compute; reflexivity].
Defined.

(** Witness: [date=ToDaY] on 2026-01-04 over the three-day table. *)
Lemma get_health_data_date_param_witness :
  "ToDaY" <> EmptyString /\
  fst (get_health_data (Ok tt) sample_range_world (mk_datetime 2026 1 4 9 30 0 0 None)
         (Some "ToDaY") (Some "2026-01-01") None) =
    Ok [row_to_dict (sample_range_row "2026-01-04")].
Proof.
  split; [discriminate|].
  assert (Hkey : forall d r, tbl_rows (mk_Table full_columns
              {[ "2026-01-03" := sample_range_row "2026-01-03";
                 "2026-01-04" := sample_range_row "2026-01-04";
                 "2026-01-05" := sample_range_row "2026-01-05" ]}) !! d = Some r ->
              row_date r = d).
  { intros d r H. cbn [tbl_rows] in H.
    repeat (apply lookup_insert_Some in H as [[<- <-]|[_ H]]; [reflexivity|]).
    rewrite lookup_singleton_Some in H. destruct H as [<- <-]. reflexivity. }
  rewrite (get_health_data_date_param (Ok tt) sample_range_world
             (mk_Table full_columns
                {[ "2026-01-03" := sample_range_row "2026-01-03";
                   "2026-01-04" := sample_range_row "2026-01-04";
                   "2026-01-05" := sample_range_row "2026-01-05" ]})
             (mk_datetime 2026 1 4 9 30 0 0 None) "ToDaY" (Some "2026-01-01") None
             eq_refl eq_refl Hkey ltac:(discriminate)).
  vm_compute. reflexivity.
Defined.

(** Witness: a mapping without [recorded_at]. *)
Lemma from_dict_default_recorded_at_witness :
  dict_get (<["date" := VStr "2026-01-05"]> (<["steps" := VInt 10]>
           (<["kcals" := VNone]> (<["km" := VNone]> ∅)))) "recorded_at" = VNone /\
  from_dict sample_now (<["date" := VStr "2026-01-05"]> (<["steps" := VInt 10]>
           (<["kcals" := VNone]> (<["km" := VNone]> ∅)))) =
    Ok (mk_HealthDump "2026-01-05" (Some 10) None None None sample_now) /\
  recorded_at (mk_HealthDump "2026-01-05" (Some 10) None None None sample_now) = sample_now.
Proof.
  split; [reflexivity|]. split; [reflexivity|].
  apply (from_dict_default_recorded_at sample_now
           (<["date" := VStr "2026-01-05"]> (<["steps" := VInt 10]>
             (<["kcals" := VNone]> (<["km" := VNone]> ∅))))); reflexivity.
Defined.

(** Witness: ["2026-01-05T10:00:00Z"]. *)
Lemma from_dict_trailing_Z_witness :
  dt_utcoffset (mk_datetime 2026 1 5 10 0 0 0 None) = None /\
  valid_datetime (mk_datetime 2026 1 5 10 0 0 0 None) = true /\
  from_dict sample_now
    (<["recorded_at" := VStr (isoformat (mk_datetime 2026 1 5 10 0 0 0 None) ++ "Z")]>
       (to_dict (sample_dump_at 10))) =
  from_dict sample_now
    (<["recorded_at" := VDatetime (with_utc (mk_datetime 2026 1 5 10 0 0 0 None))]>
       (to_dict (sample_dump_at 10))).
Proof.
  split; [reflexivity|]. split; [vm_compute; reflexivity|].
  apply from_dict_trailing_Z; [reflexivity | vm_compute; reflexivity].
Defined.

